(** * A shallow embedding of src/main.py (the e-commerce catalog demo)

    The Python program is a Streamlit page backed by Firestore.  We embed
    - [predict_sentiment], the keyword-counting sentiment simulator;
    - the module-level initialisation ([FIREBASE_CONFIG],
      [initialize_firebase], the unpacking [db, USER_ID = ...]);
    - [add_product], [get_all_products], [add_review];
    - the submit branches of [add_product_page] and of the review form.

    A Python [str] is a sequence of Unicode code points.  Text that only
    flows through the program (names, messages, document fields) is kept
    as a [String.string] holding its UTF-8 encoding; [PyStr.chars] splits
    it into its characters and [PyStr.code_points] gives its code points,
    on which [len], slicing and [str.count] work.  [str.lower] is
    CPython's builtin over the Unicode database (with its special cases:
    KELVIN SIGN to k, LATIN CAPITAL I WITH DOT ABOVE to two code points,
    final sigma by context); it is not part of this repository, so the
    code that calls it takes it as a parameter [py_lower], and the
    theorems hold for every lowering, or for every lowering with the
    properties they list, which CPython's has. *)

From Stdlib Require Import String Ascii List Bool Arith Lia ZArith Floats.
Import ListNotations.
Open Scope string_scope.
Open Scope nat_scope.

(* ================================================================== *)
(** ** Python string helpers *)

Module PyStr.

(** [c.lower()] on an ASCII character ([float()] matches "inf" and
    "nan" ignoring ASCII case). *)
Definition lower_char (c : ascii) : ascii :=
  let n := nat_of_ascii c in
  if (65 <=? n)%nat && (n <=? 90)%nat then ascii_of_nat (n + 32) else c.

(** Truthiness of a [str]: [not s] holds exactly for the empty string. *)
Definition truthy (s : string) : bool :=
  match s with EmptyString => false | _ => true end.

(** UTF-8: continuation bytes are 0x80 to 0xBF; a lead byte announces
    how many follow it. *)
Definition is_cont (c : ascii) : bool :=
  let n := nat_of_ascii c in (128 <=? n) && (n <=? 191).

Definition cont_count (c : ascii) : nat :=
  let n := nat_of_ascii c in
  if n <? 192 then 0 else if n <? 224 then 1 else if n <? 240 then 2 else 3.

(** Up to [k] continuation bytes from the front of [s], and the rest. *)
Fixpoint take_cont (k : nat) (s : string) : string * string :=
  match k, s with
  | S k', String c s' =>
      if is_cont c then let '(a, r) := take_cont k' s' in (String c a, r)
      else (EmptyString, s)
  | _, _ => (EmptyString, s)
  end.

Fixpoint chars_fuel (fuel : nat) (s : string) : list string :=
  match fuel, s with
  | S fuel', String c s' =>
      let '(cont, rest) := take_cont (cont_count c) s' in
      String c cont :: chars_fuel fuel' rest
  | _, _ => []
  end.

(** The characters of a [str], each as its UTF-8 bytes.  Each step
    reads at least one byte, so [length s] steps read all of [s].  (The
    encoding of a [str] is well formed; a stray byte would be read as a
    character of its own.) *)
Definition chars (s : string) : list string := chars_fuel (String.length s) s.

(** The code point a UTF-8 sequence encodes. *)
Definition code_point (ch : string) : N :=
  match ch with
  | EmptyString => 0%N
  | String c rest =>
      let b := N.of_nat (nat_of_ascii c) in
      let lead := match cont_count c with
                  | 0 => b | 1 => (b - 192)%N | 2 => (b - 224)%N | _ => (b - 240)%N
                  end in
      fold_left (fun acc d => acc * 64 + (N.of_nat (nat_of_ascii d) - 128))%N
        (list_ascii_of_string rest) lead
  end.

Definition code_points (s : string) : list N := map code_point (chars s).

(** [s[:n]] *)
Definition take (n : nat) (s : string) : string := String.concat "" (firstn n (chars s)).

(** [not t] for a [str] given by its code points. *)
Definition truthy_cps (t : list N) : bool :=
  match t with [] => false | _ => true end.

Fixpoint prefix (w t : list N) : bool :=
  match w, t with
  | [], _ => true
  | a :: w', b :: t' => N.eqb a b && prefix w' t'
  | _ :: _, [] => false
  end.

(** CPython's [s.count(sub)]: scan left to right, on a match count it
    and skip past it (non-overlapping), otherwise advance by one code
    point. *)
Fixpoint count_fuel (fuel : nat) (s sub : list N) : nat :=
  match fuel with
  | 0 => 0
  | S fuel' =>
      match s with
      | [] => 0
      | _ :: s' =>
          if prefix sub s
          then S (count_fuel fuel' (skipn (length sub) s) sub)
          else count_fuel fuel' s' sub
      end
  end.

Definition count (s sub : list N) : nat :=
  match sub with
  | [] => S (length s)
  | _ => count_fuel (S (length s)) s sub
  end.

End PyStr.

(* ================================================================== *)
(** ** predict_sentiment (main.py lines 11-32) *)

Definition positive_keywords : list (list N) :=
  map PyStr.code_points
    ["great"; "excellent"; "love"; "amazing"; "fantastic"; "best";
     "perfect"; "awesome"; "happy"; "wonderful"].

Definition negative_keywords : list (list N) :=
  map PyStr.code_points
    ["bad"; "terrible"; "disappointing"; "worst"; "awful"; "horrible";
     "poor"; "unusable"; "unhappy"; "broke"].

Definition emoji_positive : string := "😊".
Definition emoji_negative : string := "😞".
Definition emoji_neutral : string := "😐".

(** [sum(text.count(word) for word in keywords)] *)
Definition keyword_count (text : list N) (keywords : list (list N)) : nat :=
  fold_left (fun acc w => acc + PyStr.count text w) keywords 0.

Section Sentiment.

(** CPython's [str.lower], on code points. *)
Variable py_lower : list N -> list N.

(** The body of [predict_sentiment], with the two keyword lists as
    arguments so that statements can range over them. *)
Definition predict_sentiment_with (pos_kw neg_kw : list (list N))
    (review_text : list N) : string * string :=
  if negb (PyStr.truthy_cps review_text) then ("neutral", emoji_neutral)
  else
    let text := py_lower review_text in
    let pos_count := keyword_count text pos_kw in
    let neg_count := keyword_count text neg_kw in
    if neg_count + 1 <? pos_count then ("positive", emoji_positive)
    else if pos_count + 1 <? neg_count then ("negative", emoji_negative)
    else ("neutral", emoji_neutral).

Definition predict_sentiment (review_text : list N) : string * string :=
  predict_sentiment_with positive_keywords negative_keywords review_text.

End Sentiment.

(** A lowering for examples: it agrees with [str.lower] on the ASCII
    capitals, on the Latin-1 capitals (U+00C0 to U+00DE but U+00D7) and
    on KELVIN SIGN (U+212A, lowered to k), and leaves every other code
    point as it is. *)
Definition upper_sample (c : N) : bool :=
  (((65 <=? c) && (c <=? 90)) || ((192 <=? c) && (c <=? 222) && negb (c =? 215)))%N.

Definition lower_cp (c : N) : N :=
  if upper_sample c then (c + 32)%N else if (c =? 8490)%N then 107%N else c.

Definition lower_sample (t : list N) : list N := map lower_cp t.

Example code_points_ex : PyStr.code_points "Été K😊" = [201; 116; 233; 32; 8490; 128522]%N.
Proof. reflexivity. Qed.
Example take_ex : PyStr.take 8 "tökén-123456" = "tökén-12".
Proof. reflexivity. Qed.
Example count_ex1 : PyStr.count (PyStr.code_points "unhappy and happy") (PyStr.code_points "happy") = 2.
Proof. reflexivity. Qed.
Example count_ex2 : PyStr.count (PyStr.code_points "aaaa") (PyStr.code_points "aa") = 2.
Proof. reflexivity. Qed.
Example predict_ex1 :
  predict_sentiment lower_sample (PyStr.code_points "GREAT product, I LOVE it")
  = ("positive", emoji_positive).
Proof. reflexivity. Qed.
Example predict_ex2 :
  predict_sentiment lower_sample (PyStr.code_points "Great but it broke")
  = ("neutral", emoji_neutral).
Proof. reflexivity. Qed.
Example predict_ex3 :
  predict_sentiment lower_sample (PyStr.code_points "terrible: it broke, awful")
  = ("negative", emoji_negative).
Proof. reflexivity. Qed.

(* ================================================================== *)
(** ** Python values, exceptions, and the Streamlit/Firestore effects *)

(** The exceptions the embedded code can raise; every one of them is a
    subclass of [Exception], so [except Exception] catches all of them. *)
Inductive exn : Type :=
| NameError (name : string)
| ValueError (msg : string)
| TypeError (msg : string)
| AttributeError (msg : string)
| JSONDecodeError (msg : string)
| ImportError (msg : string)
| GoogleAPIError (msg : string).

(** [str(e)] *)
Definition exn_str (e : exn) : string :=
  match e with
  | NameError n => "name '" ++ n ++ "' is not defined"
  | ValueError m | TypeError m | AttributeError m | JSONDecodeError m
  | ImportError m | GoogleAPIError m => m
  end.

(** [except ValueError]: [json.JSONDecodeError] is a subclass. *)
Definition is_ValueError (e : exn) : bool :=
  match e with ValueError _ | JSONDecodeError _ => true | _ => false end.

Local Set Warnings "-register-all".
Inductive pyval : Type :=
| VNone
| VBool (b : bool)
| VStr (s : string)
| VFloat (f : float)
| VServerTimestamp                          (* firestore.SERVER_TIMESTAMP *)
| VList (l : list pyval)
| VDict (d : list (string * pyval)).

Definition dict := list (string * pyval).

(** [d[k] = v]: an existing key keeps its position, a new key goes last. *)
Fixpoint dict_set (d : dict) (k : string) (v : pyval) : dict :=
  match d with
  | [] => [(k, v)]
  | (k', v') :: d' =>
      if String.eqb k k' then (k, v) :: d' else (k', v') :: dict_set d' k v
  end.

(** A Firestore client as the code uses it.  [fs_stream path] is what
    [collection(path).stream()] yields: the documents (id, [to_dict()])
    delivered, and the exception the generator raises after them, if
    any.  [fs_add path doc] is the exception [collection(path).add(doc)]
    raises, if any. *)
Record Firestore : Type := mkFirestore {
  fs_stream : string -> list (string * dict) * option exn;
  fs_add : string -> dict -> option exn
}.

Inductive msg_kind : Type := MError | MWarning | MSuccess | MInfo.

(** Observable effects, newest first.  [EvCallAddProduct] is a ghost
    event recorded on entry to [add_product] with its arguments. *)
Inductive event : Type :=
| EvMsg (k : msg_kind) (text : string)
| EvWrite (path : string) (doc : dict)
| EvSession (key : string) (v : pyval)
| EvCallAddProduct (name price description image_url : pyval).

Inductive result (A : Type) : Type :=
| Ok (a : A)
| Exc (e : exn).
Arguments Ok {A} a.
Arguments Exc {A} e.

(** The monad: a log of events threaded through, and a raised exception
    that skips the rest of the block. *)
Definition M (A : Type) : Type := list event -> result A * list event.

Definition ret {A} (a : A) : M A := fun s => (Ok a, s).
Definition bind {A B} (c : M A) (k : A -> M B) : M B :=
  fun s => match c s with
           | (Ok a, s') => k a s'
           | (Exc e, s') => (Exc e, s')
           end.
Definition raise {A} (e : exn) : M A := fun s => (Exc e, s).
(** [try: c except Exception as e: h(e)] *)
Definition try_except {A} (c : M A) (h : exn -> M A) : M A :=
  fun s => match c s with
           | (Ok a, s') => (Ok a, s')
           | (Exc e, s') => h e s'
           end.
Definition emit (ev : event) : M unit := fun s => (Ok tt, ev :: s).
Definition lift {A} (r : result A) : M A :=
  match r with Ok a => ret a | Exc e => raise e end.

Notation "x <- c ;; k" := (bind c (fun x => k))
  (at level 61, c at next level, right associativity).
Notation "c ;; k" := (bind c (fun _ => k)) (at level 61, right associativity).

Definition st_error (m : string) : M unit := emit (EvMsg MError m).
Definition st_warning (m : string) : M unit := emit (EvMsg MWarning m).
Definition st_success (m : string) : M unit := emit (EvMsg MSuccess m).

(* ================================================================== *)
(** ** Module globals and the Firestore helpers (main.py lines 122-194) *)

(** The names bound at module level in main.py: its imports (lines 1-4)
    and its top-level assignments and definitions.  The name [firestore]
    is only imported inside [initialize_firebase] (line 69), as a local. *)
Definition module_names : list string :=
  ["st"; "json"; "random"; "Client"; "DocumentSnapshot";
   "predict_sentiment"; "APP_ID"; "FIREBASE_CONFIG"; "AUTH_TOKEN";
   "initialize_firebase"; "db"; "USER_ID"; "PRODUCTS_COLLECTION";
   "add_product"; "get_all_products"; "add_review";
   "product_display_page"; "add_product_page"; "main"].

Record Globals : Type := mkGlobals {
  g_names : list string;
  g_app_id : string;            (* APP_ID *)
  g_db : option Firestore;      (* db *)
  g_user_id : pyval             (* USER_ID *)
}.

Definition PRODUCTS_COLLECTION (g : Globals) : string :=
  "artifacts/" ++ g_app_id g ++ "/public/data/products".

(** [db.collection(PRODUCTS_COLLECTION).document(pid).collection('reviews')] *)
Definition reviews_path (g : Globals) (product_id : string) : string :=
  PRODUCTS_COLLECTION g ++ "/" ++ product_id ++ "/reviews".

(** Evaluating [firestore.SERVER_TIMESTAMP] inside a module-level
    function: a global name lookup. *)
Definition firestore_SERVER_TIMESTAMP (g : Globals) : M pyval :=
  if existsb (String.eqb "firestore") (g_names g) then ret VServerTimestamp
  else raise (NameError "firestore").

(** [collection(path).add(doc)] *)
Definition fs_add_m (fs : Firestore) (path : string) (doc : dict) : M unit :=
  match fs_add fs path doc with
  | Some e => raise e
  | None => emit (EvWrite path doc)
  end.

(** [float(x)], given the string parser below as [parse]. *)
Definition py_float (parse : string -> option float) (x : pyval) : M float :=
  match x with
  | VFloat f => ret f
  | VBool b => ret (if b then 1 else 0)%float
  | VStr s =>
      match parse s with
      | Some f => ret f
      | None => raise (ValueError ("could not convert string to float: '" ++ s ++ "'"))
      end
  | _ => raise (TypeError "float() argument must be a string or a real number")
  end.

Section Operations.

(** CPython's [float(str)], fixed below to [float_of_string]. *)
Variable parse : string -> option float.
(** CPython's [str.lower], on code points. *)
Variable py_lower : list N -> list N.
Variable g : Globals.

Definition add_product (name price description image_url : pyval) : M bool :=
  emit (EvCallAddProduct name price description image_url) ;;
  match g_db g with
  | None => st_error "Database not initialized." ;; ret false
  | Some fs =>
      try_except
        (p <- py_float parse price ;;
         ts <- firestore_SERVER_TIMESTAMP g ;;
         let product_data : dict :=
           [("name", name); ("price", VFloat p); ("description", description);
            ("image_url", image_url); ("created_by", g_user_id g);
            ("created_at", ts)] in
         fs_add_m fs (PRODUCTS_COLLECTION g) product_data ;;
         ret true)
        (fun e => st_error ("Error adding product: " ++ exn_str e) ;; ret false)
  end.

(** The [for product_doc in products_ref] loop; [err] is what the product
    stream raises after its last document. *)
Fixpoint products_loop (fs : Firestore) (err : option exn)
    (docs : list (string * dict)) (products_list : list dict) : M (list dict) :=
  match docs with
  | [] => match err with Some e => raise e | None => ret products_list end
  | (product_id, d) :: rest =>
      let product_data := dict_set d "id" (VStr product_id) in
      let '(reviews, rerr) := fs_stream fs (reviews_path g product_id) in
      match rerr with
      | Some e => raise e
      | None =>
          let product_data :=
            dict_set product_data "reviews" (VList (map (fun r => VDict (snd r)) reviews)) in
          products_loop fs err rest (products_list ++ [product_data])
      end
  end.

Definition get_all_products : M (list dict) :=
  match g_db g with
  | None => ret []
  | Some fs =>
      try_except
        (let '(docs, err) := fs_stream fs (PRODUCTS_COLLECTION g) in
         products_loop fs err docs [])
        (fun e => st_error ("Error fetching products: " ++ exn_str e) ;; ret [])
  end.

Definition add_review (product_id reviewer_name review_text : string) : M bool :=
  match g_db g with
  | None => st_error "Database not initialized." ;; ret false
  | Some fs =>
      try_except
        (let '(sentiment, emoji) := predict_sentiment py_lower (PyStr.code_points review_text) in
         ts <- firestore_SERVER_TIMESTAMP g ;;
         let review_data : dict :=
           [("reviewer", VStr reviewer_name); ("text", VStr review_text);
            ("sentiment", VStr sentiment); ("emoji", VStr emoji);
            ("created_by", g_user_id g); ("created_at", ts)] in
         fs_add_m fs (reviews_path g product_id) review_data ;;
         ret true)
        (fun e => st_error ("Error adding review: " ++ exn_str e) ;; ret false)
  end.

(** The [if submitted:] branch of [add_product_page] (lines 289-320),
    for the text the four widgets return. *)
Definition add_product_page_submit (name price_str description image_url : string)
    : M unit :=
  match g_db g with
  | None => st_error "Cannot add products: Database is not connected."
  | Some _ =>
      try_except
        (price <- py_float parse (VStr price_str) ;;
         if negb (PyStr.truthy name) || negb (PyStr.truthy description)
            || PrimFloat.leb price 0%float
         then st_error "Please fill in all fields correctly (Name, Description, Price > 0)."
         else
           ok <- add_product (VStr name) (VFloat price) (VStr description) (VStr image_url) ;;
           if ok
           then st_success ("Product '" ++ name ++ "' added successfully! Check the Products page.") ;;
                emit (EvSession "refresh_products" (VBool true))
           else st_error "Failed to add product to Firestore.")
        (fun e => if is_ValueError e
                  then st_error "Invalid price format. Please enter a valid number."
                  else st_error ("An unexpected error occurred: " ++ exn_str e))
  end.

End Operations.

(* ================================================================== *)
(** ** CPython's [float(str)] *)

Module PyFloat.

Definition is_space (c : ascii) : bool :=
  let n := nat_of_ascii c in
  (n =? 32) || ((9 <=? n) && (n <=? 13)).

Fixpoint lstrip (l : list ascii) : list ascii :=
  match l with
  | c :: l' => if is_space c then lstrip l' else l
  | [] => []
  end.

(** [s.strip()] on the characters of [s]. *)
Definition strip (l : list ascii) : list ascii := rev (lstrip (rev (lstrip l))).

Definition digit_of (c : ascii) : option nat :=
  let n := nat_of_ascii c in
  if (48 <=? n) && (n <=? 57) then Some (n - 48) else None.

(** The rest of a digit part: digits, each optionally preceded by one
    underscore; returns the digits and the unread input. *)
Fixpoint digit_tail (l : list ascii) : list nat * list ascii :=
  match l with
  | [] => ([], [])
  | c :: l' =>
      match digit_of c with
      | Some d => let '(ds, r) := digit_tail l' in (d :: ds, r)
      | None =>
          if Ascii.eqb c "_" then
            match l' with
            | c2 :: l'' =>
                match digit_of c2 with
                | Some d => let '(ds, r) := digit_tail l'' in (d :: ds, r)
                | None => ([], l)
                end
            | [] => ([], l)
            end
          else ([], l)
      end
  end.

(** [digitpart ::= digit (["_"] digit)*] *)
Definition digitpart (l : list ascii) : option (list nat * list ascii) :=
  match l with
  | c :: l' =>
      match digit_of c with
      | Some d => let '(ds, r) := digit_tail l' in Some (d :: ds, r)
      | None => None
      end
  | [] => None
  end.

(** [ds * 10^e] in binary64: the digits by Horner's rule, then one
    multiplication or division by [10^|e|].  When the digits fit in 53
    bits and [|e| <= 22] both operands are exact and the result is
    correctly rounded, as CPython's is; outside that range the last bit
    can differ from CPython, while the sign and the zero, infinity and NaN
    cases agree. *)
Definition pow10 (k : nat) : float := Nat.iter k (fun x => x * 10)%float 1%float.

Definition scale (ds : list nat) (e : Z) : float :=
  let fm := fold_left (fun acc d => acc * 10 + PrimFloat.of_uint63 (Uint63.of_Z (Z.of_nat d)))%float
              ds 0%float in
  if (0 <=? e)%Z then (fm * pow10 (Z.to_nat e))%float
  else (fm / pow10 (Z.to_nat (- e)))%float.

(** [exponent ::= ("e" | "E") ["+" | "-"] digitpart]; the whole input
    must be read. *)
Definition exponent (l : list ascii) : option Z :=
  let body l :=
    match digitpart l with
    | Some (ds, []) => Some ds
    | _ => None
    end in
  let value ds := Z.of_nat (fold_left (fun acc d => acc * 10 + d) ds 0) in
  match l with
  | [] => Some 0%Z
  | e :: l' =>
      if Ascii.eqb e "e" || Ascii.eqb e "E" then
        match l' with
        | "-"%char :: l'' => option_map (fun ds => (- value ds)%Z) (body l'')
        | "+"%char :: l'' => option_map value (body l'')
        | _ => option_map value (body l')
        end
      else None
  end.

(** [decimal ::= digitpart ["." [digitpart]] | "." digitpart], then an
    optional exponent. *)
Definition decimal (l : list ascii) : option float :=
  let '(ip, r) := match digitpart l with Some p => p | None => ([], l) end in
  let '(fp, r) :=
    match r with
    | "."%char :: r' => match digitpart r' with Some p => p | None => ([], r') end
    | _ => ([], r)
    end in
  match app ip fp with
  | [] => None
  | ds =>
      match exponent r with
      | Some e => Some (scale ds (e - Z.of_nat (length fp))%Z)
      | None => None
      end
  end.

Definition lower_list (l : list ascii) : list ascii := map PyStr.lower_char l.

(** [infinity ::= "inf" | "infinity"], [nan ::= "nan"], any case. *)
Definition unsigned (l : list ascii) : option float :=
  let w := string_of_list_ascii (lower_list l) in
  if String.eqb w "nan" then Some nan
  else if String.eqb w "inf" || String.eqb w "infinity" then Some infinity
  else decimal l.

End PyFloat.

(** [float(s)] for a string [s]: [None] is the [ValueError]. *)
Definition float_of_string (s : string) : option float :=
  match PyFloat.strip (list_ascii_of_string s) with
  | "-"%char :: l => option_map PrimFloat.opp (PyFloat.unsigned l)
  | "+"%char :: l => PyFloat.unsigned l
  | l => PyFloat.unsigned l
  end.

Example float_ex1 : float_of_string " 49.99 " = Some (4999 / 100)%float.
Proof. reflexivity. Qed.
Example float_ex2 : float_of_string "1_000e-3" = Some 1%float.
Proof. reflexivity. Qed.
Example float_ex3 : float_of_string "abc" = None.
Proof. reflexivity. Qed.
Example float_ex4 : float_of_string "-0" = Some (-0)%float.
Proof. reflexivity. Qed.
Example float_ex5 : float_of_string "NaN" = Some nan.
Proof. reflexivity. Qed.
Example float_ex6 : float_of_string "1." = Some 1%float /\ float_of_string "." = None
  /\ float_of_string "1__0" = None /\ float_of_string "_1" = None.
Proof. repeat split; reflexivity. Qed.

(* ================================================================== *)
(** ** Module-level initialisation (main.py lines 36-123) *)

Inductive json : Type :=
| JNull
| JBool (b : bool)
| JNum (f : float)
| JStr (s : string)
| JArr (l : list json)
| JObj (kv : list (string * json)).

(** [bool(x)] for the value [json.loads] returns. *)
Definition json_truthy (j : json) : bool :=
  match j with
  | JNull => false
  | JBool b => b
  | JNum f => negb (PrimFloat.eqb f 0%float)
  | JStr s => PyStr.truthy s
  | JArr l => negb (Nat.eqb (length l) 0)
  | JObj kv => negb (Nat.eqb (length kv) 0)
  end.

(** [FIREBASE_CONFIG.get(key, default)]; a JSON object with a repeated key
    keeps the last value. *)
Definition json_get (j : json) (key : string) (default : json) : M json :=
  match j with
  | JObj kv =>
      match find (fun p => String.eqb (fst p) key) (rev kv) with
      | Some (_, v) => ret v
      | None => ret default
      end
  | _ => raise (AttributeError "object has no attribute 'get'")
  end.

(** What the program finds in its environment and the libraries it
    calls, which are not part of this repository. *)
Record Env : Type := mkEnv {
  env_app_id : option string;           (* __app_id; None: NameError *)
  env_firebase_config : option string;  (* __firebase_config *)
  env_auth_token : option string;       (* __initial_auth_token *)
  json_loads : string -> result json;
  sdk_import : option exn;              (* the imports of lines 67-71 *)
  sdk_client : json -> result Firestore;
      (* credentials.Certificate({... "project_id": pid ...}) then
         firestore.client() *)
  randint : nat                         (* random.randint(1000, 9999) *)
}.

Fixpoint string_of_nat_fuel (fuel n : nat) (acc : string) : string :=
  match fuel with
  | 0 => acc
  | S fuel' =>
      let acc' := String (ascii_of_nat (48 + n mod 10)) acc in
      if n <? 10 then acc' else string_of_nat_fuel fuel' (n / 10) acc'
  end.

(** [str(n)] *)
Definition string_of_nat (n : nat) : string := string_of_nat_fuel (S n) n "".

(** Elements of the tuples [initialize_firebase] returns. *)
Inductive tval : Type := TNone | TDb (fs : Firestore) | TStr (s : string).

Definition initialize_firebase (env : Env) (FIREBASE_CONFIG : json)
    (AUTH_TOKEN : option string) : M (list tval) :=
  if negb (json_truthy FIREBASE_CONFIG) then ret [TNone; TNone; TNone]
  else
    try_except
      (match sdk_import env with Some e => raise e | None => ret tt end ;;
       (* [if not initialize_app]: a function object is truthy *)
       project_id <- json_get FIREBASE_CONFIG "projectId" (JStr "demo-project") ;;
       db <- lift (sdk_client env project_id) ;;
       let anonymous := "anonymous_" ++ string_of_nat (randint env) in
       let user_id :=
         match AUTH_TOKEN with
         | Some tok => if PyStr.truthy tok then "auth_" ++ PyStr.take 8 tok else anonymous
         | None => anonymous
         end in
       emit (EvSession "user_id" (VStr user_id)) ;;
       ret [TDb db; TStr user_id])
      (fun e =>
         st_error ("Could not initialize Firebase/Firestore Client. Error: " ++ exn_str e) ;;
         ret [TNone; TNone]).

(** [a, b = t] *)
Definition unpack2 (t : list tval) : M (tval * tval) :=
  match t with
  | [a; b] => ret (a, b)
  | _ =>
      if 2 <? length t then raise (ValueError "too many values to unpack (expected 2)")
      else raise (ValueError ("not enough values to unpack (expected 2, got "
                              ++ string_of_nat (length t) ++ ")"))
  end.

Definition tval_db (t : tval) : option Firestore :=
  match t with TDb fs => Some fs | _ => None end.
Definition tval_py (t : tval) : pyval :=
  match t with TStr s => VStr s | _ => VNone end.

Definition config_missing_msg : string :=
  "Firebase config not found. Data persistence is disabled.".

(** Lines 36-123, in order.  An exception escaping this block stops the
    script. *)
Definition module_init (env : Env) : M Globals :=
  APP_ID <- match env_app_id env with
            | Some a => ret a
            | None => st_warning "Using default App ID." ;; ret "default-ecommerce-app"
            end ;;
  FIREBASE_CONFIG <-
    match env_firebase_config env with
    | None => st_error config_missing_msg ;; ret (JObj [])
    | Some t =>
        try_except (lift (json_loads env t))
          (fun e => match e with
                    | JSONDecodeError _ => st_error config_missing_msg ;; ret (JObj [])
                    | _ => raise e
                    end)
    end ;;
  let AUTH_TOKEN := env_auth_token env in
  t <- initialize_firebase env FIREBASE_CONFIG AUTH_TOKEN ;;
  p <- unpack2 t ;;
  ret {| g_names := module_names; g_app_id := APP_ID;
         g_db := tval_db (fst p); g_user_id := tval_py (snd p) |}.

(** A sample environment: [json.loads] yields an object with a
    project id and the SDK hands out a working client with no documents. *)
Definition empty_store : Firestore :=
  {| fs_stream := fun _ => ([], None); fs_add := fun _ _ => None |}.

Definition env_ok : Env :=
  {| env_app_id := Some "shop"; env_firebase_config := Some "config";
     env_auth_token := None;
     json_loads := fun _ => Ok (JObj [("projectId", JStr "p")]);
     sdk_import := None; sdk_client := fun _ => Ok empty_store; randint := 1234 |}.

(* ================================================================== *)
(** ** Reading a dict, and the review form (main.py lines 261-280) *)

(** [d.get(k)]: the value under the first entry with key [k]. *)
Definition dict_get (d : dict) (k : string) : option pyval :=
  match find (fun p => String.eqb (fst p) k) d with
  | Some (_, v) => Some v
  | None => None
  end.

(** [str.isspace()] on an ASCII character: tab, line feed, vertical tab,
    form feed, carriage return, the separators 0x1c to 0x1f, and space.
    (Python also counts some non-ASCII characters, U+0085 and U+00A0
    among them, which this ASCII model does not strip.) *)
Definition is_py_space (c : ascii) : bool :=
  let n := nat_of_ascii c in
  ((9 <=? n) && (n <=? 13)) || ((28 <=? n) && (n <=? 32)).

Fixpoint lstrip_space (l : list ascii) : list ascii :=
  match l with
  | c :: l' => if is_py_space c then lstrip_space l' else l
  | [] => []
  end.

(** [s.strip()] *)
Definition str_strip (s : string) : string :=
  string_of_list_ascii (rev (lstrip_space (rev (lstrip_space (list_ascii_of_string s))))).

(** The [if submitted:] branch of the review form of one product
    (lines 270-280).  The answer is whether [st.experimental_rerun()] is
    reached, which ends this run of the script. *)
Definition review_form_submit (py_lower : list N -> list N) (g : Globals)
    (product_id reviewer_name review_text : string) : M bool :=
  if PyStr.truthy (str_strip review_text) then
    ok <- add_review py_lower g product_id reviewer_name review_text ;;
    if ok then
      st_success "Review submitted successfully! Refreshing product list..." ;;
      emit (EvSession "refresh_products" (VBool true)) ;;
      ret true
    else st_error "Failed to submit review." ;; ret false
  else st_warning "Please write a review before submitting." ;; ret false.

(** The answer with positive and negative exchanged. *)
Definition mirror_sentiment (r : string * string) : string * string :=
  if String.eqb (fst r) "positive" then ("negative", emoji_negative)
  else if String.eqb (fst r) "negative" then ("positive", emoji_positive)
  else r.

(* ================================================================== *)
(** * Properties *)

(** ** Lemmas on the string helpers *)

Lemma upper_sample_iff (c : N) :
  upper_sample c = true <-> ((65 <= c <= 90) \/ (192 <= c <= 222 /\ c <> 215))%N.
Proof.
  unfold upper_sample.
  rewrite orb_true_iff, !andb_true_iff, negb_true_iff, !N.leb_le, N.eqb_neq. tauto.
Qed.

Lemma lower_cp_idem (c : N) : lower_cp (lower_cp c) = lower_cp c.
Proof.
  assert (Hfix : forall d, upper_sample d = false -> (d =? 8490)%N = false -> lower_cp d = d).
  { intros d H1 H2. unfold lower_cp. now rewrite H1, H2. }
  unfold lower_cp at 2 3.
  destruct (upper_sample c) eqn:E1; [| destruct (c =? 8490)%N eqn:E2].
  - apply upper_sample_iff in E1. apply Hfix.
    + apply not_true_iff_false. rewrite upper_sample_iff. lia.
    + apply N.eqb_neq. lia.
  - reflexivity.
  - apply Hfix; assumption.
Qed.

Lemma lower_sample_nonempty (t : list N) : lower_sample t = [] -> t = [].
Proof. destruct t; [reflexivity | discriminate]. Qed.

Lemma lower_sample_idem (t : list N) : lower_sample (lower_sample t) = lower_sample t.
Proof.
  unfold lower_sample. rewrite map_map. apply map_ext. apply lower_cp_idem.
Qed.

Lemma keyword_count_empty (ws : list (list N)) :
  (forall w, In w ws -> w <> []) -> keyword_count [] ws = 0.
Proof.
  unfold keyword_count. generalize 0 as acc. induction ws as [| w ws IH]; intros acc Hw.
  - reflexivity.
  - simpl. destruct w as [| c w].
    + exfalso. apply (Hw []); [left; reflexivity | reflexivity].
    + simpl. rewrite Nat.add_0_r. apply IH. intros w' Hin. apply Hw. now right.
Qed.

Lemma keywords_nonempty :
  (forall w, In w positive_keywords -> w <> []) /\
  (forall w, In w negative_keywords -> w <> []).
Proof.
  assert (Hp : Forall (fun w => w <> []) positive_keywords)
    by (vm_compute; repeat (constructor; [discriminate |]); constructor).
  assert (Hn : Forall (fun w => w <> []) negative_keywords)
    by (vm_compute; repeat (constructor; [discriminate |]); constructor).
  rewrite Forall_forall in Hp, Hn. split; assumption.
Qed.

(** ** C1 *)

(** C1: predict_sentiment lower-cases the text, sums the (non-overlapping,
    as [str.count]) occurrence counts of the ten positive and of the ten
    negative keywords, and answers positive exactly when the positive
    count exceeds the negative count by more than one, negative exactly
    when the negative count exceeds the positive count by more than one,
    and neutral otherwise.  This holds for every lowering [py_lower] that
    maps the empty string to itself, as [str.lower] does. *)
Theorem predict_sentiment_spec (py_lower : list N -> list N) (Hnil : py_lower [] = [])
    (t : list N) :
  let text := py_lower t in
  let p := keyword_count text positive_keywords in
  let n := keyword_count text negative_keywords in
  (predict_sentiment py_lower t = ("positive", emoji_positive) <-> p > n + 1) /\
  (predict_sentiment py_lower t = ("negative", emoji_negative) <-> n > p + 1) /\
  (predict_sentiment py_lower t = ("neutral", emoji_neutral) <-> ~ p > n + 1 /\ ~ n > p + 1).
Proof.
  intros text p n. subst text p n.
  unfold predict_sentiment, predict_sentiment_with.
  destruct t as [| c t].
  - destruct keywords_nonempty as [Hp Hn].
    rewrite Hnil, (keyword_count_empty _ Hp), (keyword_count_empty _ Hn).
    cbn [PyStr.truthy_cps negb]. intuition (try discriminate; try lia).
  - cbn [PyStr.truthy_cps negb].
    set (p := keyword_count _ positive_keywords).
    set (n := keyword_count _ negative_keywords).
    destruct (Nat.ltb_spec (n + 1) p) as [Hlt | Hge];
      [| destruct (Nat.ltb_spec (p + 1) n) as [Hlt' | Hge']];
      intuition (try discriminate; try lia).
Qed.

(** "BROKE BROKE" written with KELVIN SIGN (U+212A) for both K. *)
Definition kelvin_review : list N := PyStr.code_points "BROKE BROKE".

Lemma predict_sentiment_spec_witness :
  lower_sample [] = [] /\
  predict_sentiment lower_sample kelvin_review = ("negative", emoji_negative).
Proof.
  split; [reflexivity |].
  apply (proj2 (proj1 (proj2 (predict_sentiment_spec lower_sample eq_refl kelvin_review)))).
  vm_compute. lia.
Defined.

(** ** C8 *)

(** C8: for a falsy review text (for a [str], the empty string)
    predict_sentiment answers neutral straight away: the answer is the
    same whatever the lowering and the keyword lists, so no counting
    decides it. *)
Theorem predict_sentiment_falsy (py_lower : list N -> list N) (pos_kw neg_kw : list (list N))
    (t : list N) :
  PyStr.truthy_cps t = false ->
  predict_sentiment_with py_lower pos_kw neg_kw t = ("neutral", emoji_neutral).
Proof. intros Ht. unfold predict_sentiment_with. now rewrite Ht. Qed.

Lemma predict_sentiment_falsy_witness :
  PyStr.truthy_cps [] = false /\
  predict_sentiment_with lower_sample [[97%N]] [] [] = ("neutral", emoji_neutral).
Proof. split; [reflexivity | apply predict_sentiment_falsy; reflexivity]. Defined.

(** ** C9 *)

(** C9: predict_sentiment is case-insensitive: [t] and [t.lower()] get
    the same answer, and so do any two texts that differ only in letter
    case, that is, that have the same lower case.  This holds for every
    lowering with the properties of [str.lower] it relies on: the empty
    string lowers to itself and nothing else does, and lowering twice is
    lowering once. *)
Theorem predict_sentiment_case_insensitive (py_lower : list N -> list N)
    (Hnil : py_lower [] = [])
    (Hne : forall t, py_lower t = [] -> t = [])
    (Hidem : forall t, py_lower (py_lower t) = py_lower t) :
  (forall t, predict_sentiment py_lower t = predict_sentiment py_lower (py_lower t)) /\
  (forall t1 t2, py_lower t1 = py_lower t2 ->
                 predict_sentiment py_lower t1 = predict_sentiment py_lower t2).
Proof.
  assert (Htr : forall t, PyStr.truthy_cps (py_lower t) = PyStr.truthy_cps t).
  { intros [| c t]; [now rewrite Hnil |].
    destruct (py_lower (c :: t)) eqn:E; [apply Hne in E; discriminate | reflexivity]. }
  assert (Hgen : forall t1 t2, py_lower t1 = py_lower t2 ->
                               predict_sentiment py_lower t1 = predict_sentiment py_lower t2).
  { intros t1 t2 Heq. unfold predict_sentiment, predict_sentiment_with.
    rewrite <- (Htr t1), <- (Htr t2), Heq. reflexivity. }
  split; [| exact Hgen].
  intros t. apply Hgen. now rewrite Hidem.
Qed.

Lemma predict_sentiment_case_insensitive_witness :
  lower_sample kelvin_review = lower_sample (PyStr.code_points "BROKE BROKE") /\
  predict_sentiment lower_sample kelvin_review =
    predict_sentiment lower_sample (PyStr.code_points "BROKE BROKE").
Proof.
  split; [reflexivity |].
  apply (proj2 (predict_sentiment_case_insensitive lower_sample eq_refl
                  lower_sample_nonempty lower_sample_idem)).
  reflexivity.
Defined.

(** ** C2 *)

Ltac run_m :=
  unfold bind, ret, raise, try_except, emit, lift, st_error, st_warning,
    st_success in *; simpl in *.

(** C2 (as the code behaves): when [__firebase_config] is undefined or
    not valid JSON, [FIREBASE_CONFIG] becomes [{}] and the error "Data
    persistence is disabled" is shown, but then [initialize_firebase]
    returns the three-element tuple [(None, None, None)], and the
    two-name unpacking at line 122 raises an uncaught [ValueError]:
    the script stops instead of running with [db = None]. *)
Theorem module_init_config_missing_crashes (env : Env) :
  (env_firebase_config env = None \/
   exists t m, env_firebase_config env = Some t /\ json_loads env t = Exc (JSONDecodeError m)) ->
  fst (module_init env []) = Exc (ValueError "too many values to unpack (expected 2)") /\
  In (EvMsg MError config_missing_msg) (snd (module_init env [])).
Proof.
  intros Hcfg. unfold module_init, initialize_firebase, unpack2.
  destruct Hcfg as [Hn | (t & m & Ht & Hj)];
    destruct (env_app_id env); run_m;
    [rewrite Hn | rewrite Hn | rewrite Ht, Hj | rewrite Ht, Hj]; simpl;
    auto 6.
Qed.

Definition env_no_config : Env :=
  {| env_app_id := None; env_firebase_config := None; env_auth_token := None;
     json_loads := json_loads env_ok; sdk_import := None;
     sdk_client := sdk_client env_ok; randint := 1234 |}.

Lemma module_init_config_missing_crashes_witness :
  fst (module_init env_no_config []) = Exc (ValueError "too many values to unpack (expected 2)").
Proof.
  apply (module_init_config_missing_crashes env_no_config). left. reflexivity.
Defined.

(** With a configuration, the same environment initialises and runs. *)
Example module_init_env_ok :
  exists g, fst (module_init env_ok []) = Ok g /\ g_db g = Some empty_store
            /\ g_user_id g = VStr "anonymous_1234".
Proof. eexists. split; [reflexivity | split; reflexivity]. Qed.

(** ** C3 and C4 *)

Lemma bind_ok {A B} (c : M A) (k : A -> M B) s b :
  fst (bind c k s) = Ok b -> exists a s', c s = (Ok a, s') /\ fst (k a s') = Ok b.
Proof.
  unfold bind. destruct (c s) as [[a | e] s']; simpl; [eauto | discriminate].
Qed.

(** Every program state reached after the module body has the module's
    own global names. *)
Lemma module_init_names (env : Env) s g :
  fst (module_init env s) = Ok g -> g_names g = module_names.
Proof.
  unfold module_init. intros H.
  apply bind_ok in H as (? & ? & _ & H).
  apply bind_ok in H as (? & ? & _ & H).
  apply bind_ok in H as (? & ? & _ & H).
  apply bind_ok in H as (? & ? & _ & H).
  unfold ret in H. simpl in H. injection H as <-. reflexivity.
Qed.

Lemma SERVER_TIMESTAMP_unbound (g : Globals) s :
  g_names g = module_names ->
  firestore_SERVER_TIMESTAMP g s = (Exc (NameError "firestore"), s).
Proof. intros Hn. unfold firestore_SERVER_TIMESTAMP. now rewrite Hn. Qed.

Definition name_firestore_msg : string := "name 'firestore' is not defined".

Definition g_ok : Globals :=
  {| g_names := module_names; g_app_id := "shop"; g_db := Some empty_store;
     g_user_id := VStr "anonymous_1234" |}.

Lemma module_init_env_ok_g : fst (module_init env_ok []) = Ok g_ok.
Proof. reflexivity. Qed.

(** C3 (as the code behaves): once the database is initialised,
    [add_product] still never writes.  [firestore] is not a module-level
    name of main.py, so building the document raises [NameError] at
    [firestore.SERVER_TIMESTAMP] (or [float(price)] fails first); the
    handler shows an error and returns False. *)
Theorem add_product_never_writes (env : Env) (g : Globals) (fs : Firestore)
    (parse : string -> option float) (name price description image_url : pyval)
    (s : list event) :
  fst (module_init env []) = Ok g -> g_db g = Some fs ->
  exists m,
    add_product parse g name price description image_url s =
      (Ok false, EvMsg MError m :: EvCallAddProduct name price description image_url :: s)
    /\ (forall f, price = VFloat f -> m = "Error adding product: " ++ name_firestore_msg).
Proof.
  intros Hinit Hdb. pose proof (module_init_names env [] g Hinit) as Hn.
  unfold add_product. rewrite Hdb. unfold emit, bind at 1.
  unfold try_except, bind.
  destruct price as [| b | str | f | | l | d]; unfold py_float, ret, raise;
    try (eexists; split; [reflexivity | discriminate]);
    try (rewrite (SERVER_TIMESTAMP_unbound g _ Hn); eexists; split; reflexivity).
  destruct (parse str); [rewrite (SERVER_TIMESTAMP_unbound g _ Hn) |];
    eexists; (split; [reflexivity | discriminate]).
Qed.

Lemma add_product_never_writes_witness :
  add_product float_of_string g_ok (VStr "Mug") (VFloat 9.5%float) (VStr "A mug")
    (VStr "https://placehold.co/400x300") [] =
  (Ok false, [EvMsg MError ("Error adding product: " ++ name_firestore_msg);
              EvCallAddProduct (VStr "Mug") (VFloat 9.5%float) (VStr "A mug")
                (VStr "https://placehold.co/400x300")]).
Proof.
  destruct (add_product_never_writes env_ok g_ok empty_store float_of_string
              (VStr "Mug") (VFloat 9.5%float) (VStr "A mug")
              (VStr "https://placehold.co/400x300") [] module_init_env_ok_g eq_refl)
    as (m & Heq & Hm).
  rewrite Heq, (Hm _ eq_refl). reflexivity.
Defined.

(** C4 (as the code behaves): once the database is initialised,
    [add_review] computes the sentiment but never writes the review: the
    same [NameError] on [firestore.SERVER_TIMESTAMP] is caught and it
    returns False, whatever lowering [str.lower] is. *)
Theorem add_review_never_writes (py_lower : list N -> list N) (env : Env) (g : Globals)
    (fs : Firestore) (product_id reviewer_name review_text : string) (s : list event) :
  fst (module_init env []) = Ok g -> g_db g = Some fs ->
  add_review py_lower g product_id reviewer_name review_text s =
    (Ok false, EvMsg MError ("Error adding review: " ++ name_firestore_msg) :: s).
Proof.
  intros Hinit Hdb. pose proof (module_init_names env [] g Hinit) as Hn.
  unfold add_review. rewrite Hdb.
  destruct (predict_sentiment py_lower (PyStr.code_points review_text)) as [sentiment emoji].
  unfold try_except, bind. rewrite (SERVER_TIMESTAMP_unbound g s Hn). reflexivity.
Qed.

Lemma add_review_never_writes_witness :
  add_review lower_sample g_ok "p1" "Ann" "Great, I love it" [] =
    (Ok false, [EvMsg MError ("Error adding review: " ++ name_firestore_msg)]).
Proof.
  exact (add_review_never_writes lower_sample env_ok g_ok empty_store "p1" "Ann" "Great, I love it" []
           module_init_env_ok_g eq_refl).
Defined.

(** ** C5 *)

(** The last thing shown is an [st.error]. *)
Definition shows_error (log : list event) : Prop :=
  exists m rest, log = EvMsg MError m :: rest.

(** The document [add_product] writes, for the converted price [p] and
    the timestamp [ts]. *)
Definition product_doc (g : Globals) (name : pyval) (p : float)
    (description image_url ts : pyval) : dict :=
  [("name", name); ("price", VFloat p); ("description", description);
   ("image_url", image_url); ("created_by", g_user_id g); ("created_at", ts)].

(** The document [add_review] writes, for the sentiment answer [r] and
    the timestamp [ts]. *)
Definition review_doc (g : Globals) (reviewer_name review_text : string)
    (r : string * string) (ts : pyval) : dict :=
  [("reviewer", VStr reviewer_name); ("text", VStr review_text);
   ("sentiment", VStr (fst r)); ("emoji", VStr (snd r));
   ("created_by", g_user_id g); ("created_at", ts)].

Ltac finish_no_raise :=
  refine (conj _ (conj _ _));
  [ first [ left; reflexivity
          | right; split; [reflexivity | unfold shows_error; eauto 6] ]
  | discriminate
  | let fs' := fresh "fs" in let Heq := fresh "Heq" in let Hadd := fresh "Hadd" in
    intros fs' Heq Hadd; injection Heq as Heq; subst;
    first [ reflexivity
          | exfalso; eapply Hadd; [reflexivity | eassumption]
          | exfalso; eapply Hadd; eassumption ] ].

(** C5: [add_product] and [add_review] never let an exception out; when
    they answer False the last message shown is an error; with no
    database handle, or when the Firestore write the call makes raises
    (whatever other writes do), they answer False. *)
Theorem add_product_add_review_no_raise (parse : string -> option float)
    (py_lower : list N -> list N) (g : Globals) :
  (forall name price description image_url s,
     let res := add_product parse g name price description image_url s in
     (fst res = Ok true \/ (fst res = Ok false /\ shows_error (snd res))) /\
     (g_db g = None -> fst res = Ok false) /\
     (forall fs, g_db g = Some fs ->
        (forall p, fst (py_float parse price []) = Ok p ->
           fs_add fs (PRODUCTS_COLLECTION g)
             (product_doc g name p description image_url VServerTimestamp) <> None) ->
        fst res = Ok false)) /\
  (forall product_id reviewer_name review_text s,
     let res := add_review py_lower g product_id reviewer_name review_text s in
     (fst res = Ok true \/ (fst res = Ok false /\ shows_error (snd res))) /\
     (g_db g = None -> fst res = Ok false) /\
     (forall fs, g_db g = Some fs ->
        fs_add fs (reviews_path g product_id)
          (review_doc g reviewer_name review_text
             (predict_sentiment py_lower (PyStr.code_points review_text)) VServerTimestamp)
          <> None ->
        fst res = Ok false)).
Proof.
  split.
  - intros name price description image_url s res. subst res.
    unfold add_product, emit, bind at 1.
    destruct (g_db g) as [fs |] eqn:Hdb.
    + unfold try_except, bind, py_float, firestore_SERVER_TIMESTAMP, fs_add_m,
        ret, raise, emit, st_error.
      destruct price as [| b | str | f | | l | d]; [| | destruct (parse str) | | | |];
        cbn; try destruct (existsb _ _); cbn;
        try (destruct (fs_add fs _ _) eqn:E); cbn; finish_no_raise.
    + simpl. split; [unfold shows_error; eauto 6 | split; [auto | discriminate]].
  - intros product_id reviewer_name review_text s res. subst res.
    unfold add_review.
    destruct (g_db g) as [fs |] eqn:Hdb.
    + destruct (predict_sentiment py_lower (PyStr.code_points review_text))
        as [sentiment emoji].
      unfold try_except, bind, firestore_SERVER_TIMESTAMP, fs_add_m,
        ret, raise, emit, st_error.
      cbn; destruct (existsb _ _); cbn;
        try (destruct (fs_add fs _ _) eqn:E); cbn; finish_no_raise.
    + simpl. split; [unfold shows_error; eauto 6 | split; [auto | discriminate]].
Qed.

(** A store that refuses writes to the products collection of the shop
    and accepts every other write. *)
Definition store_products_denied : Firestore :=
  {| fs_stream := fun _ => ([], None);
     fs_add := fun path _ =>
       if String.eqb path (PRODUCTS_COLLECTION g_ok)
       then Some (GoogleAPIError "403 Missing or insufficient permissions.")
       else None |}.

(** Globals in which the name [firestore] were bound, so that the write
    is reached. *)
Definition g_bound : Globals :=
  {| g_names := "firestore" :: module_names; g_app_id := "shop";
     g_db := Some store_products_denied; g_user_id := VNone |}.

Lemma add_product_add_review_no_raise_witness :
  fst (add_product float_of_string g_bound
         (VStr "Mug") (VFloat 9.5%float) (VStr "A mug") (VStr "u") []) = Ok false.
Proof.
  destruct (proj1 (add_product_add_review_no_raise float_of_string lower_sample g_bound)
               (VStr "Mug") (VFloat 9.5%float) (VStr "A mug") (VStr "u") [])
    as (_ & _ & Hw).
  apply (Hw store_products_denied eq_refl). intros p _ H. vm_compute in H. discriminate H.
Defined.

(** ** C6 *)

(** The product entry the loop builds from one streamed document. *)
Definition build_product (g : Globals) (fs : Firestore) (p : string * dict) : dict :=
  let '(product_id, d) := p in
  dict_set (dict_set d "id" (VStr product_id)) "reviews"
    (VList (map (fun r => VDict (snd r)) (fst (fs_stream fs (reviews_path g product_id))))).

Definition reviews_ok (g : Globals) (fs : Firestore) (p : string * dict) : Prop :=
  snd (fs_stream fs (reviews_path g (fst p))) = None.

(** No stream the function consumes raises. *)
Definition streams_ok (g : Globals) (fs : Firestore) : Prop :=
  snd (fs_stream fs (PRODUCTS_COLLECTION g)) = None /\
  Forall (reviews_ok g fs) (fst (fs_stream fs (PRODUCTS_COLLECTION g))).

Lemma products_loop_ok_inv (g : Globals) (fs : Firestore) err docs acc s l s' :
  products_loop g fs err docs acc s = (Ok l, s') ->
  err = None /\ Forall (reviews_ok g fs) docs /\ l = app acc (map (build_product g fs) docs)
  /\ s' = s.
Proof.
  revert acc. induction docs as [| [pid d] docs IH]; intros acc Hrun; simpl in Hrun.
  - destruct err; unfold raise, ret in Hrun; inversion Hrun; subst.
    rewrite app_nil_r. auto.
  - destruct (fs_stream fs (reviews_path g pid)) as [reviews rerr] eqn:Hr.
    destruct rerr as [e |]; [unfold raise in Hrun; discriminate |].
    apply IH in Hrun as (Herr & Hall & Hl & Hs). subst.
    repeat split; auto.
    + constructor; [unfold reviews_ok; simpl; now rewrite Hr | exact Hall].
    + rewrite <- app_assoc. simpl. unfold build_product at 1. now rewrite Hr.
Qed.

Lemma products_loop_ok (g : Globals) (fs : Firestore) docs acc s :
  Forall (reviews_ok g fs) docs ->
  products_loop g fs None docs acc s = (Ok (app acc (map (build_product g fs) docs)), s).
Proof.
  revert acc. induction docs as [| [pid d] docs IH]; intros acc Hall.
  - simpl. now rewrite app_nil_r.
  - inversion Hall as [| ? ? Hhead Htail]; subst. unfold reviews_ok in Hhead. simpl in Hhead.
    simpl. destruct (fs_stream fs (reviews_path g pid)) as [reviews rerr] eqn:Hr.
    simpl in Hhead. subst rerr. rewrite (IH _ Htail).
    rewrite <- app_assoc. reflexivity.
Qed.

(** C6: [get_all_products] never raises; it returns [[]] when there is no
    database handle or when any stream it consumes (the products, or the
    reviews of a product) raises; otherwise it returns the entry of every
    product delivered.  No partial list is ever returned. *)
Theorem get_all_products_all_or_nothing (g : Globals) (s : list event) :
  let res := fst (get_all_products g s) in
  (g_db g = None -> res = Ok []) /\
  (forall fs, g_db g = Some fs -> ~ streams_ok g fs -> res = Ok []) /\
  (forall fs, g_db g = Some fs -> streams_ok g fs ->
     res = Ok (map (build_product g fs) (fst (fs_stream fs (PRODUCTS_COLLECTION g))))).
Proof.
  intros res. subst res. unfold get_all_products.
  split; [intros Hdb; now rewrite Hdb |].
  split; intros fs Hdb; rewrite Hdb; unfold try_except;
    destruct (fs_stream fs (PRODUCTS_COLLECTION g)) as [docs err] eqn:Hp.
  - intros Hnot.
    destruct (products_loop g fs err docs [] s) as [[l | e] s'] eqn:Hrun.
    + exfalso. apply products_loop_ok_inv in Hrun as (Herr & Hall & _).
      apply Hnot. unfold streams_ok. rewrite Hp. simpl. auto.
    + reflexivity.
  - intros [Herr Hall]. rewrite Hp in Herr, Hall. simpl in Herr, Hall. subst err.
    rewrite (products_loop_ok g fs docs [] s Hall). reflexivity.
Qed.

Definition store_reviews_down : Firestore :=
  {| fs_stream := fun path =>
       if String.eqb path (PRODUCTS_COLLECTION g_ok)
       then ([("p1", [("name", VStr "Mug")]); ("p2", [("name", VStr "Cup")])], None)
       else if String.eqb path (reviews_path g_ok "p2")
       then ([], Some (GoogleAPIError "503 unavailable"))
       else ([], None);
     fs_add := fun _ _ => None |}.

Lemma get_all_products_all_or_nothing_witness :
  fst (get_all_products
         {| g_names := module_names; g_app_id := "shop";
            g_db := Some store_reviews_down; g_user_id := VNone |} []) = Ok [].
Proof.
  apply (proj1 (proj2 (get_all_products_all_or_nothing
                         {| g_names := module_names; g_app_id := "shop";
                            g_db := Some store_reviews_down; g_user_id := VNone |} []))
           store_reviews_down eq_refl).
  intros [_ Hall]. vm_compute in Hall.
  inversion Hall as [| ? ? _ Htail]. inversion Htail as [| ? ? Hp2 _].
  vm_compute in Hp2. discriminate.
Defined.

(** ** C7 *)

(** [add_product] logs its own call and otherwise only messages and
    writes. *)
Lemma add_product_calls (parse : string -> option float) (g : Globals)
    name price description image_url s a b c d :
  In (EvCallAddProduct a b c d) (snd (add_product parse g name price description image_url s)) ->
  (a, b, c, d) = (name, price, description, image_url) \/ In (EvCallAddProduct a b c d) s.
Proof.
  unfold add_product, emit, bind at 1.
  destruct (g_db g) as [fs |].
  - unfold try_except, bind, py_float, firestore_SERVER_TIMESTAMP, fs_add_m,
      ret, raise, emit, st_error.
    destruct price as [| bb | str | f | | l | dd]; [| | destruct (parse str) | | | |];
      cbn; try destruct (existsb _ _); cbn;
      try destruct (fs_add fs _ _); cbn;
      intros H; repeat (destruct H as [H | H]; [try discriminate; injection H; intros; subst; auto |]);
      auto.
  - cbn. intros H; repeat (destruct H as [H | H]; [try discriminate; injection H; intros; subst; auto |]);
      auto.
Qed.

(** What the form lets through (by the code): a submission reaches
    [add_product] only with a non-empty name and description and a price
    string that [float] parses to a value that is not [<= 0]. *)
Lemma add_product_page_gate (parse : string -> option float) (g : Globals)
    name price_str description image_url a b c d :
  In (EvCallAddProduct a b c d)
     (snd (add_product_page_submit parse g name price_str description image_url [])) ->
  PyStr.truthy name = true /\ PyStr.truthy description = true /\
  exists p, parse price_str = Some p /\ PrimFloat.leb p 0%float = false /\
            (a, b, c, d) = (VStr name, VFloat p, VStr description, VStr image_url).
Proof.
  unfold add_product_page_submit.
  destruct (g_db g) as [fs |]; [| cbn; intros [H | []]; discriminate].
  unfold try_except, bind at 1, py_float.
  destruct (parse price_str) as [p |] eqn:Hp;
    [| cbn; intros [H | []]; discriminate].
  unfold ret.
  destruct (PyStr.truthy name) eqn:Hn; [| cbn; intros [H | []]; discriminate].
  destruct (PyStr.truthy description) eqn:Hd; [| cbn; intros [H | []]; discriminate].
  destruct (PrimFloat.leb p 0%float) eqn:Hle; [cbn; intros [H | []]; discriminate |].
  cbn [negb orb]. unfold bind at 1.
  destruct (add_product parse g (VStr name) (VFloat p) (VStr description) (VStr image_url) [])
    as [r log] eqn:Hadd.
  intros Hin.
  assert (Hlog : In (EvCallAddProduct a b c d) log).
  { destruct r as [[|] | e]; unfold st_success, st_error, emit, bind in Hin; cbn in Hin.
    - destruct Hin as [H | [H | H]]; try discriminate; exact H.
    - destruct Hin as [H | H]; try discriminate; exact H.
    - destruct (is_ValueError e); cbn in Hin;
        (destruct Hin as [H | H]; [discriminate | exact H]). }
  pose proof (add_product_calls parse g (VStr name) (VFloat p) (VStr description)
                (VStr image_url) [] a b c d) as Hc.
  rewrite Hadd in Hc. cbn in Hc. destruct (Hc Hlog) as [Heq | []].
  repeat split; auto. exists p. auto.
Qed.

(** C7 (as the code behaves): the price check is [price <= 0], which is
    False for NaN, so the price text "nan" passes the form and reaches
    [add_product] with a price that is not greater than 0, against the
    form's own message "Price > 0". *)
Theorem add_product_page_accepts_nan :
  float_of_string "nan" = Some nan /\
  PrimFloat.ltb 0%float nan = false /\
  In (EvCallAddProduct (VStr "Mug") (VFloat nan) (VStr "A mug") (VStr "u"))
     (snd (add_product_page_submit float_of_string g_ok "Mug" "nan" "A mug" "u" [])).
Proof. vm_compute. auto 6. Qed.

(* ================================================================== *)
(** * Further properties of the code *)

(** ** Dicts: [d[k] = v] then [d.get(...)] *)

Lemma dict_get_set_same (d : dict) (k : string) (v : pyval) :
  dict_get (dict_set d k v) k = Some v.
Proof.
  unfold dict_get. induction d as [| [k' v'] d IH]; simpl.
  - now rewrite String.eqb_refl.
  - destruct (String.eqb k k') eqn:E; simpl.
    + now rewrite String.eqb_refl.
    + rewrite String.eqb_sym, E. exact IH.
Qed.

Lemma dict_get_set_other (d : dict) (k k2 : string) (v : pyval) :
  k2 <> k -> dict_get (dict_set d k v) k2 = dict_get d k2.
Proof.
  intros Hne. assert (Hf : String.eqb k k2 = false) by (apply String.eqb_neq; congruence).
  unfold dict_get. induction d as [| [k' v'] d IH]; simpl.
  - now rewrite Hf.
  - destruct (String.eqb k k') eqn:E; simpl.
    + apply String.eqb_eq in E. subst k'. now rewrite Hf.
    + destruct (String.eqb k' k2); [reflexivity | exact IH].
Qed.

(** Python's [d[k] = v] followed by [d.get(k)] reads back [v], and leaves
    every other key as it was. *)
Theorem dict_set_get (d : dict) (k : string) (v : pyval) :
  dict_get (dict_set d k v) k = Some v /\
  (forall k2, k2 <> k -> dict_get (dict_set d k v) k2 = dict_get d k2).
Proof. split; [apply dict_get_set_same | intros k2; apply dict_get_set_other]. Qed.

(** ** The entries [get_all_products] returns *)

Lemma build_product_fields (g : Globals) (fs : Firestore) (p : string * dict) :
  dict_get (build_product g fs p) "id" = Some (VStr (fst p)) /\
  dict_get (build_product g fs p) "reviews" =
    Some (VList (map (fun r => VDict (snd r)) (fst (fs_stream fs (reviews_path g (fst p)))))).
Proof.
  destruct p as [pid d]. unfold build_product. split.
  - rewrite dict_get_set_other by discriminate. apply dict_get_set_same.
  - apply dict_get_set_same.
Qed.

(** When no stream fails, [get_all_products] returns one entry per
    product document, in stream order; each entry's ["id"] is the
    document id (overriding any stored ["id"] field) and its
    ["reviews"] is the list of that product's review documents. *)
Theorem get_all_products_entries (g : Globals) (fs : Firestore) (s : list event) :
  g_db g = Some fs -> streams_ok g fs ->
  exists l, fst (get_all_products g s) = Ok l /\
    Forall2 (fun p e =>
               dict_get e "id" = Some (VStr (fst p)) /\
               dict_get e "reviews" =
                 Some (VList (map (fun r => VDict (snd r))
                                  (fst (fs_stream fs (reviews_path g (fst p)))))))
            (fst (fs_stream fs (PRODUCTS_COLLECTION g))) l.
Proof.
  intros Hdb [Herr Hall]. unfold get_all_products, try_except. rewrite Hdb.
  destruct (fs_stream fs (PRODUCTS_COLLECTION g)) as [docs err] eqn:Hp.
  simpl in Herr, Hall |- *. subst err.
  rewrite (products_loop_ok g fs docs [] s Hall). simpl.
  eexists. split; [reflexivity |].
  clear Hall Hp. induction docs as [| p docs IH]; simpl; constructor; auto.
  apply build_product_fields.
Qed.

Definition store_two_products : Firestore :=
  {| fs_stream := fun path =>
       if String.eqb path (PRODUCTS_COLLECTION g_ok)
       then ([("p1", [("name", VStr "Mug"); ("id", VStr "old")]);
              ("p2", [("name", VStr "Cup")])], None)
       else if String.eqb path (reviews_path g_ok "p1")
       then ([("r1", [("reviewer", VStr "Ann")])], None)
       else ([], None);
     fs_add := fun _ _ => None |}.

Lemma get_all_products_entries_witness :
  exists l, fst (get_all_products
                   {| g_names := module_names; g_app_id := "shop";
                      g_db := Some store_two_products; g_user_id := VNone |} []) = Ok l /\
            length l = 2.
Proof.
  destruct (get_all_products_entries
              {| g_names := module_names; g_app_id := "shop";
                 g_db := Some store_two_products; g_user_id := VNone |}
              store_two_products [] eq_refl) as (l & Hl & Hf).
  - split; [reflexivity |]. vm_compute. repeat constructor.
  - exists l. split; [exact Hl |]. apply Forall2_length in Hf. rewrite <- Hf. reflexivity.
Defined.

(** ** predict_sentiment: exchanging the keyword lists *)

(** Exchanging the positive and negative keyword lists exchanges the
    positive and negative answers and keeps neutral: the two thresholds
    are symmetric (for every lowering). *)
Theorem predict_sentiment_with_swap (py_lower : list N -> list N)
    (pos_kw neg_kw : list (list N)) (t : list N) :
  predict_sentiment_with py_lower neg_kw pos_kw t =
    mirror_sentiment (predict_sentiment_with py_lower pos_kw neg_kw t).
Proof.
  unfold predict_sentiment_with.
  destruct (PyStr.truthy_cps t); [| reflexivity]. simpl negb. cbv iota zeta.
  set (p := keyword_count _ pos_kw). set (n := keyword_count _ neg_kw).
  destruct (Nat.ltb_spec (n + 1) p); destruct (Nat.ltb_spec (p + 1) n);
    try lia; reflexivity.
Qed.

(** ** str.count: occurrences do not overlap *)

Lemma prefix_length (w t : list N) : PyStr.prefix w t = true -> length w <= length t.
Proof.
  revert t. induction w as [| a w IH]; intros [| b t] H; simpl in *; try lia; try discriminate.
  apply andb_true_iff in H as [_ H]. apply IH in H. lia.
Qed.

Lemma count_fuel_bound (f : nat) (s w : list N) :
  w <> [] -> PyStr.count_fuel f s w * length w <= length s.
Proof.
  intros Hw. revert s. induction f as [| f IH]; intros s; simpl; [lia |].
  destruct s as [| c s']; [simpl; lia |].
  destruct (PyStr.prefix w (c :: s')) eqn:Hp.
  - pose proof (prefix_length _ _ Hp) as Hl.
    specialize (IH (skipn (length w) (c :: s'))).
    rewrite length_skipn in IH. simpl (S _ * _). lia.
  - specialize (IH s'). simpl length. lia.
Qed.

(** [s.count(w)] counts non-overlapping occurrences: for a non-empty
    [w], the occurrences it counts take at most [len(s)] characters
    (code points). *)
Theorem count_nonoverlapping (s w : list N) :
  w <> [] -> PyStr.count s w * length w <= length s.
Proof.
  intros Hw. unfold PyStr.count. destruct w as [| c w]; [contradiction |].
  apply count_fuel_bound. exact Hw.
Qed.

Lemma count_nonoverlapping_witness :
  PyStr.code_points "a" <> [] /\
  PyStr.count (PyStr.code_points "aaé") (PyStr.code_points "a") * 1 <= 3.
Proof.
  split; [discriminate |].
  apply (count_nonoverlapping (PyStr.code_points "aaé") (PyStr.code_points "a")).
  discriminate.
Defined.

Lemma dict_set_get_witness :
  dict_get (dict_set [("id", VStr "old"); ("name", VStr "Mug")] "id" (VStr "p1")) "name"
  = Some (VStr "Mug").
Proof.
  rewrite (proj2 (dict_set_get [("id", VStr "old"); ("name", VStr "Mug")] "id" (VStr "p1"))
             "name" ltac:(discriminate)).
  reflexivity.
Defined.

(** ** Module initialisation: the other outcomes *)

Definition app_id_of (env : Env) : string :=
  match env_app_id env with Some a => a | None => "default-ecommerce-app" end.
Definition app_id_log (env : Env) : list event :=
  match env_app_id env with Some _ => [] | None => [EvMsg MWarning "Using default App ID."] end.

(** The module body once [FIREBASE_CONFIG] has loaded to [j]. *)
Lemma module_init_loaded (env : Env) (t : string) (j : json) :
  env_firebase_config env = Some t -> json_loads env t = Ok j ->
  module_init env [] =
    bind (initialize_firebase env j (env_auth_token env))
      (fun tup => bind (unpack2 tup) (fun p =>
         ret {| g_names := module_names; g_app_id := app_id_of env;
                g_db := tval_db (fst p); g_user_id := tval_py (snd p) |}))
      (app_id_log env).
Proof.
  intros Hc Hj. unfold module_init, app_id_of, app_id_log.
  unfold bind at 1 2. destruct (env_app_id env); cbn [ret st_warning emit];
    unfold bind at 1; unfold try_except; rewrite Hc; cbn [lift ret]; rewrite Hj; reflexivity.
Qed.

Lemma initialize_firebase_fails (env : Env) (j : json) (auth : option string) s :
  json_truthy j = true ->
  (sdk_import env <> None \/ (forall kv, j <> JObj kv) \/
   (forall pid, fst (json_get j "projectId" (JStr "demo-project") []) = Ok pid ->
                exists e, sdk_client env pid = Exc e)) ->
  exists e, initialize_firebase env j auth s =
    (Ok [TNone; TNone],
     EvMsg MError ("Could not initialize Firebase/Firestore Client. Error: " ++ exn_str e) :: s).
Proof.
  intros Ht Hfail. unfold initialize_firebase. rewrite Ht. simpl negb. cbv iota.
  unfold try_except, bind, st_error, emit, ret, raise.
  destruct (sdk_import env) as [e |] eqn:Hi; [exists e; reflexivity |].
  unfold json_get.
  destruct j as [| b | f | str | l | kv];
    try (exists (AttributeError "object has no attribute 'get'"); reflexivity).
  destruct Hfail as [Hf | [Hf | Hf]]; [contradiction | exfalso; eapply Hf; reflexivity |].
  simpl negb. cbv iota.
  destruct (find _ (rev kv)) as [[k v] |] eqn:Hfind; unfold ret, lift;
    [ assert (Hg : fst (json_get (JObj kv) "projectId" (JStr "demo-project") []) = Ok v)
        by (unfold json_get; rewrite Hfind; reflexivity);
      destruct (Hf v Hg) as [e He]
    | assert (Hg : fst (json_get (JObj kv) "projectId" (JStr "demo-project") [])
                   = Ok (JStr "demo-project"))
        by (unfold json_get; rewrite Hfind; reflexivity);
      destruct (Hf _ Hg) as [e He] ];
    rewrite He; exists e; reflexivity.
Qed.

(** When the configuration loads to a truthy value but the block that
    sets up Firebase raises (the imports fail, the configuration is not
    a JSON object so [.get] fails, or the client cannot be created for
    the project id the configuration gives), the
    error is shown and the script goes on with [db] and [USER_ID] both
    [None]. *)
Theorem module_init_sdk_failure (env : Env) (t : string) (j : json) :
  env_firebase_config env = Some t -> json_loads env t = Ok j -> json_truthy j = true ->
  (sdk_import env <> None \/ (forall kv, j <> JObj kv) \/
   (forall pid, fst (json_get j "projectId" (JStr "demo-project") []) = Ok pid ->
                exists e, sdk_client env pid = Exc e)) ->
  exists g, fst (module_init env []) = Ok g /\ g_db g = None /\ g_user_id g = VNone /\
    exists e, In (EvMsg MError ("Could not initialize Firebase/Firestore Client. Error: "
                                ++ exn_str e)) (snd (module_init env [])).
Proof.
  intros Hc Hj Ht Hfail.
  destruct (initialize_firebase_fails env j (env_auth_token env) (app_id_log env) Ht Hfail)
    as [e He].
  assert (Hm : module_init env [] =
    (Ok {| g_names := module_names; g_app_id := app_id_of env; g_db := None;
           g_user_id := VNone |},
     EvMsg MError ("Could not initialize Firebase/Firestore Client. Error: " ++ exn_str e)
       :: app_id_log env)).
  { rewrite (module_init_loaded env t j Hc Hj). unfold bind at 1. rewrite He. reflexivity. }
  rewrite Hm. eexists. split; [reflexivity |]. split; [reflexivity | split; [reflexivity |]].
  exists e. left. reflexivity.
Qed.

(** An SDK that can create a client for every project but the one the
    configuration names. *)
Definition env_client_fails : Env :=
  {| env_app_id := Some "shop"; env_firebase_config := Some "config";
     env_auth_token := None;
     json_loads := fun _ => Ok (JObj [("projectId", JStr "p")]);
     sdk_import := None;
     sdk_client := fun pid =>
       match pid with
       | JStr "p" => Exc (ValueError "Invalid service account certificate.")
       | _ => Ok empty_store
       end;
     randint := 1234 |}.

Lemma module_init_sdk_failure_witness :
  exists g, fst (module_init env_client_fails []) = Ok g /\ g_db g = None.
Proof.
  assert (Hc : forall pid,
            fst (json_get (JObj [("projectId", JStr "p")]) "projectId" (JStr "demo-project") [])
            = Ok pid -> exists e, sdk_client env_client_fails pid = Exc e).
  { intros pid Hp. vm_compute in Hp. injection Hp as <-. eexists. reflexivity. }
  destruct (module_init_sdk_failure env_client_fails "config" (JObj [("projectId", JStr "p")])
              eq_refl eq_refl eq_refl (or_intror (or_intror Hc)))
    as (g & Hg & Hdb & _).
  exists g. split; assumption.
Defined.

(** A configuration that is valid JSON but falsy ([{}], [[]], [0],
    [null], [""], [false]) shows no error about the configuration, and
    the script still stops: [initialize_firebase] returns three values
    and the unpacking into [db, USER_ID] raises [ValueError]. *)
Theorem module_init_falsy_config_crashes (env : Env) (t : string) (j : json) :
  env_firebase_config env = Some t -> json_loads env t = Ok j -> json_truthy j = false ->
  fst (module_init env []) = Exc (ValueError "too many values to unpack (expected 2)") /\
  ~ In (EvMsg MError config_missing_msg) (snd (module_init env [])).
Proof.
  intros Hc Hj Ht. unfold module_init, initialize_firebase, unpack2.
  destruct (env_app_id env); run_m; rewrite Hc, Hj; simpl; rewrite Ht; simpl;
    (split; [reflexivity |]); intros H;
    repeat (destruct H as [H | H]; [discriminate H |]); contradiction.
Qed.

Lemma module_init_falsy_config_crashes_witness :
  fst (module_init {| env_app_id := Some "shop"; env_firebase_config := Some "{}";
                      env_auth_token := None; json_loads := fun _ => Ok (JObj []);
                      sdk_import := None; sdk_client := fun _ => Ok empty_store;
                      randint := 1234 |} [])
  = Exc (ValueError "too many values to unpack (expected 2)").
Proof.
  apply (module_init_falsy_config_crashes
           {| env_app_id := Some "shop"; env_firebase_config := Some "{}";
              env_auth_token := None; json_loads := fun _ => Ok (JObj []);
              sdk_import := None; sdk_client := fun _ => Ok empty_store;
              randint := 1234 |} "{}" (JObj [])); reflexivity.
Defined.

(** When the configuration is a non-empty JSON object and the SDK hands
    out a client for the project id it gives, the script runs with that client as [db]; [USER_ID] and
    [st.session_state['user_id']] are the same id, ["auth_"] and the
    first eight characters (code points, [PyStr.take]) of a non-empty
    token, ["anonymous_"] and the
    random number otherwise; [APP_ID] is [__app_id] or
    ["default-ecommerce-app"]. *)
Theorem module_init_success (env : Env) (t : string) (kv : list (string * json))
    (fs : Firestore) :
  env_firebase_config env = Some t -> json_loads env t = Ok (JObj kv) -> kv <> [] ->
  sdk_import env = None ->
  (forall pid, fst (json_get (JObj kv) "projectId" (JStr "demo-project") []) = Ok pid ->
               sdk_client env pid = Ok fs) ->
  let anonymous := "anonymous_" ++ string_of_nat (randint env) in
  let uid := match env_auth_token env with
             | Some tok => if PyStr.truthy tok then "auth_" ++ PyStr.take 8 tok else anonymous
             | None => anonymous
             end in
  fst (module_init env []) =
    Ok {| g_names := module_names; g_app_id := app_id_of env; g_db := Some fs;
          g_user_id := VStr uid |} /\
  In (EvSession "user_id" (VStr uid)) (snd (module_init env [])).
Proof.
  intros Hc Hj Hkv Hi Hs anonymous uid.
  assert (Hm : module_init env [] =
    (Ok {| g_names := module_names; g_app_id := app_id_of env; g_db := Some fs;
           g_user_id := VStr uid |},
     EvSession "user_id" (VStr uid) :: app_id_log env)).
  { rewrite (module_init_loaded env t (JObj kv) Hc Hj).
    unfold initialize_firebase.
    destruct kv as [| p kv]; [contradiction |]. simpl json_truthy. cbv iota.
    unfold bind, try_except. rewrite Hi. unfold ret, json_get.
    destruct (find _ (rev (p :: kv))) as [[k v] |] eqn:Hfind; unfold lift; cbn;
      rewrite Hs; try reflexivity; unfold json_get; rewrite Hfind; reflexivity. }
  rewrite Hm. split; [reflexivity | left; reflexivity].
Qed.

Lemma module_init_success_witness :
  fst (module_init {| env_app_id := None; env_firebase_config := Some "config";
                      env_auth_token := Some "tökén-123456";
                      json_loads := fun _ => Ok (JObj [("projectId", JStr "p")]);
                      sdk_import := None; sdk_client := fun _ => Ok empty_store;
                      randint := 1234 |} [])
  = Ok {| g_names := module_names; g_app_id := "default-ecommerce-app";
          g_db := Some empty_store; g_user_id := VStr "auth_tökén-12" |}.
Proof.
  assert (Hkv : [("projectId", JStr "p")] <> []) by discriminate.
  exact (proj1 (module_init_success
    {| env_app_id := None; env_firebase_config := Some "config";
       env_auth_token := Some "tökén-123456";
       json_loads := fun _ => Ok (JObj [("projectId", JStr "p")]);
       sdk_import := None; sdk_client := fun _ => Ok empty_store; randint := 1234 |}
    "config" [("projectId", JStr "p")] empty_store eq_refl eq_refl Hkv eq_refl
    (fun _ _ => eq_refl))).
Defined.

(** ** The add-product form after initialisation *)

Lemma add_product_float_unbound (parse : string -> option float) (g : Globals)
    (fs : Firestore) name p description image_url s :
  g_names g = module_names -> g_db g = Some fs ->
  add_product parse g name (VFloat p) description image_url s =
    (Ok false, EvMsg MError ("Error adding product: " ++ name_firestore_msg)
               :: EvCallAddProduct name (VFloat p) description image_url :: s).
Proof.
  intros Hn Hdb. unfold add_product, bind at 1, emit. rewrite Hdb.
  unfold try_except, bind at 1, py_float, ret.
  unfold bind. rewrite (SERVER_TIMESTAMP_unbound g _ Hn). reflexivity.
Qed.

Ltac no_success_log :=
  repeat split;
  [ let H := fresh "H" in intros ? ? H; repeat (destruct H as [H | H]; [discriminate H |]);
    contradiction
  | let H := fresh "H" in intros ? H; repeat (destruct H as [H | H]; [discriminate H |]);
    contradiction
  | unfold shows_error; eauto ].

(** Once the script has initialised with a database, no submission of
    the add-product form ever writes or shows a success message: the
    last message is always an error (bad price, missing field, or
    "Failed to add product to Firestore." after the [NameError] inside
    [add_product]). *)
Theorem add_product_page_never_succeeds (env : Env) (g : Globals) (fs : Firestore)
    (parse : string -> option float) (name price_str description image_url : string) :
  fst (module_init env []) = Ok g -> g_db g = Some fs ->
  let log := snd (add_product_page_submit parse g name price_str description image_url []) in
  (forall path doc, ~ In (EvWrite path doc) log) /\
  (forall m, ~ In (EvMsg MSuccess m) log) /\ shows_error log.
Proof.
  intros Hinit Hdb log. subst log.
  pose proof (module_init_names env [] g Hinit) as Hn.
  destruct (parse price_str) as [p |] eqn:Hp;
    [destruct (PyStr.truthy name) eqn:Hname; destruct (PyStr.truthy description) eqn:Hdesc;
       destruct (PrimFloat.leb p 0%float) eqn:Hle |];
    unfold add_product_page_submit, try_except, py_float;
    rewrite Hdb, Hp; unfold bind, ret; cbn -[add_product];
    try rewrite Hname; try rewrite Hdesc; try rewrite Hle; cbn -[add_product];
    try (no_success_log; fail).
  rewrite (add_product_float_unbound parse g fs _ _ _ _ _ Hn Hdb).
  cbn. no_success_log.
Qed.

Lemma add_product_page_never_succeeds_witness :
  ~ In (EvMsg MSuccess "Product 'Mug' added successfully! Check the Products page.")
       (snd (add_product_page_submit float_of_string g_ok "Mug" "9.5" "A mug" "u" [])).
Proof.
  exact (proj1 (proj2 (add_product_page_never_succeeds env_ok g_ok empty_store float_of_string
                         "Mug" "9.5" "A mug" "u" module_init_env_ok_g eq_refl))
           "Product 'Mug' added successfully! Check the Products page.").
Defined.

(** ** The review form *)

Lemma lstrip_space_all (l : list ascii) :
  Forall (fun c => is_py_space c = true) l -> lstrip_space l = [].
Proof. induction 1 as [| c l Hc _ IH]; simpl; [reflexivity | now rewrite Hc]. Qed.

(** A review made only of whitespace is never submitted: the form shows
    its warning and calls nothing else. *)
Theorem review_form_blank (py_lower : list N -> list N) (g : Globals)
    (product_id reviewer_name review_text : string) (s : list event) :
  Forall (fun c => is_py_space c = true) (list_ascii_of_string review_text) ->
  review_form_submit py_lower g product_id reviewer_name review_text s =
    (Ok false, EvMsg MWarning "Please write a review before submitting." :: s).
Proof.
  intros Hall. unfold review_form_submit, str_strip.
  rewrite (lstrip_space_all _ Hall). reflexivity.
Qed.

Lemma review_form_blank_witness :
  review_form_submit lower_sample g_ok "p1" "Ann" " 
	" [] =
    (Ok false, [EvMsg MWarning "Please write a review before submitting."]).
Proof. apply review_form_blank. repeat constructor. Defined.

(** Once the script has initialised with a database, every non-blank
    review submission ends with "Failed to submit review.", after the
    [NameError] that [add_review] turns into an error message: the page
    never refreshes with a new review. *)
Theorem review_form_never_succeeds (py_lower : list N -> list N) (env : Env) (g : Globals)
    (fs : Firestore) (product_id reviewer_name review_text : string) (s : list event) :
  fst (module_init env []) = Ok g -> g_db g = Some fs ->
  PyStr.truthy (str_strip review_text) = true ->
  review_form_submit py_lower g product_id reviewer_name review_text s =
    (Ok false, EvMsg MError "Failed to submit review."
               :: EvMsg MError ("Error adding review: " ++ name_firestore_msg) :: s).
Proof.
  intros Hinit Hdb Ht. pose proof (module_init_names env [] g Hinit) as Hn.
  unfold review_form_submit. rewrite Ht.
  unfold bind at 1, add_review. rewrite Hdb.
  destruct (predict_sentiment py_lower (PyStr.code_points review_text)) as [sentiment emoji].
  unfold try_except, bind at 1. rewrite (SERVER_TIMESTAMP_unbound g s Hn). reflexivity.
Qed.

Lemma review_form_never_succeeds_witness :
  fst (review_form_submit lower_sample g_ok "p1" "Ann" "Great, I love it" []) = Ok false.
Proof.
  rewrite (review_form_never_succeeds lower_sample env_ok g_ok empty_store "p1" "Ann" "Great, I love it" []
             module_init_env_ok_g eq_refl eq_refl).
  reflexivity.
Defined.

Lemma add_product_page_gate_witness :
  exists p, float_of_string "9.5" = Some p /\ PrimFloat.leb p 0%float = false.
Proof.
  assert (Hin : In (EvCallAddProduct (VStr "Mug") (VFloat 9.5%float) (VStr "A mug") (VStr "u"))
                   (snd (add_product_page_submit float_of_string g_ok "Mug" "9.5" "A mug" "u" [])))
    by (vm_compute; auto 6).
  destruct (add_product_page_gate float_of_string g_ok "Mug" "9.5" "A mug" "u" _ _ _ _ Hin)
    as (_ & _ & p & Hp & Hle & _).
  exists p. split; assumption.
Defined.
